(** * VPF_Calculator: pension-fund tax relief

    A shallow embedding of the computational core of [VPF_Calculator.py]
    (the two slab tables, [calculate_business_tax], [get_salaried_tax]
    and [pension_tax_calculator]) together with the properties its
    specification states about them.

    Numbers.  The program computes on Python [int]s and [float]s.  Every
    finite [int] or [float] is a rational number, and Python compares an
    [int] with a [float] exactly, so incomes and amounts are values of
    [Q]; the integer tables are kept in [Z].  Arithmetic is exact: the
    rounding error of binary floating point is not part of the model
    (the rates [0.05], [0.125], ... are the decimal fractions the source
    writes).  [float("inf")] occurs once, as the last limit of the
    business table, and is a constructor of its own.

    Faults.  The one fault the arithmetic itself can raise is the
    [OverflowError] of an [int] too large to become a [float]; module
    [Converting] repeats the functions concerned with that conversion
    in place. *)

From Stdlib Require Import ZArith QArith Qround List String Ascii Bool.
From Stdlib Require Import Sorted Permutation Lia Lqa.
Import ListNotations.

Local Open Scope Q_scope.

(** ** Python values and operators *)

Module Py.

(** Exceptions the modelled statements can raise. *)
Inductive exn : Type :=
| KeyError
| IndexError
| ZeroDivisionError
| OverflowError.

(** A computation either raises or returns. *)
Inductive res (A : Type) : Type :=
| Raise (e : exn)
| Return (a : A).
Arguments Raise {A} e.
Arguments Return {A} a.

Definition bind {A B : Type} (m : res A) (k : A -> res B) : res B :=
  match m with
  | Raise e => Raise e
  | Return a => k a
  end.

(** [x <= y], [x < y] and [x == y] on numbers. *)
Definition le (x y : Q) : bool := Qle_bool x y.
Definition lt (x y : Q) : bool := negb (Qle_bool y x).
Definition eq (x y : Q) : bool := Qeq_bool x y.

(** [x / y]: true division, which raises on a zero divisor. *)
Definition truediv (x y : Q) : res Q :=
  if eq y 0 then Raise ZeroDivisionError else Return (x / y).

(** The conversion of a number to a [float], which Python performs on
    an [int] that meets a [float] in a product or a quotient.  A float
    is below [2^1024 - 2^970] in magnitude and converts to itself; an
    [int] of that magnitude or more raises. *)
Definition float_limit : Q := inject_Z (2 ^ 1024 - 2 ^ 970).

Definition fits (x : Q) : bool := lt (- float_limit) x && lt x float_limit.

Definition to_float (x : Q) : res Q :=
  if fits x then Return x else Raise OverflowError.

(** [min(a, b)]: the first argument unless the second is smaller. *)
Definition min (a b : Q) : Q := if lt b a then b else a.

(** [round(x, 0)]: the nearest whole number, a tie going to the even
    neighbour.  On a whole number it is the identity. *)
Definition round (x : Q) : Z :=
  let f := Qfloor x in
  let r := x - inject_Z f in
  if lt r (1 # 2) then f
  else if lt (1 # 2) r then (f + 1)%Z
  else if Z.even f then f else (f + 1)%Z.

(** A [dict] with integer keys, in insertion order. *)
Definition dict : Type := list (Z * Z).

Definition keys (d : dict) : list Z := map fst d.

(** [d[k]] *)
Fixpoint getitem (d : dict) (k : Z) : res Z :=
  match d with
  | [] => Raise KeyError
  | (k', v) :: d' => if (k' =? k)%Z then Return v else getitem d' k
  end.

(** [sorted(l)] on integers, by insertion. *)
Fixpoint insert (x : Z) (l : list Z) : list Z :=
  match l with
  | [] => [x]
  | y :: l' => if (x <=? y)%Z then x :: l else y :: insert x l'
  end.

Definition sorted (l : list Z) : list Z := fold_right insert [] l.

(** [l[-1]] *)
Fixpoint last (l : list Z) : res Z :=
  match l with
  | [] => Raise IndexError
  | [x] => Return x
  | _ :: l' => last l'
  end.

(** [s.title()] on ASCII text: every letter that follows a letter is
    lowered, every other letter is raised. *)
Definition is_lower (c : ascii) : bool :=
  let n := nat_of_ascii c in ((97 <=? n) && (n <=? 122))%nat.
Definition is_upper (c : ascii) : bool :=
  let n := nat_of_ascii c in ((65 <=? n) && (n <=? 90))%nat.
Definition to_upper (c : ascii) : ascii :=
  if is_lower c then ascii_of_nat (nat_of_ascii c - 32) else c.
Definition to_lower (c : ascii) : ascii :=
  if is_upper c then ascii_of_nat (nat_of_ascii c + 32) else c.

Fixpoint title_from (previous_is_cased : bool) (s : string) : string :=
  match s with
  | EmptyString => EmptyString
  | String c s' =>
      let cased := is_lower c || is_upper c in
      String (if previous_is_cased then to_lower c else to_upper c)
             (title_from cased s')
  end.

Definition title (s : string) : string := title_from false s.

End Py.

Notation "x <- m ;; k" := (Py.bind m (fun x => k))
  (at level 61, m at next level, right associativity).

(** ** Salary slabs (fixed tax values for 2026) *)

Definition salary_slabs : Py.dict :=
  [ (600000, 0);
    (1200000, 6000);
    (1800000, 72000);
    (2400000, 162000);
    (2700000, 231000);
    (3000000, 300000);
    (3600000, 466000);
    (4200000, 651000);
    (4800000, 861000);
    (5400000, 1071000);
    (6000000, 1281000);
    (6600000, 1491000);
    (7200000, 1701000);
    (9600000, 2541000);
    (12000000, 3692850);
    (18000000, 5981850);
    (24000000, 8270850);
    (30000000, 10559850);
    (33600000, 11933250);
    (36000000, 12848850) ]%Z.

(** ** Business slabs (progressive) *)

(** The upper limit of a bracket: a number, or [float("inf")]. *)
Inductive limit : Type :=
| Finite (q : Q)
| Infinite.

(** A bracket [(limit, base_tax, rate)]. *)
Definition slab : Type := (limit * Q * Q)%type.

Definition slab_limit (s : slab) : limit := fst (fst s).
Definition slab_base_tax (s : slab) : Q := snd (fst s).
Definition slab_rate (s : slab) : Q := snd s.

Definition business_slabs : list slab :=
  [ (Finite 600000, 0, 0);
    (Finite 800000, 0, 0.05);
    (Finite 1200000, 10000, 0.125);
    (Finite 2400000, 60000, 0.175);
    (Finite 3000000, 270000, 0.225);
    (Finite 4000000, 405000, 0.275);
    (Finite 6000000, 680000, 0.325);
    (Infinite, 1330000, 0.35) ].

(** The [for i, (limit, base_tax, rate) in enumerate(business_slabs)]
    loop of [calculate_business_tax], from some entry on.

    [lower_bound] is [business_slabs[i - 1][0] if i > 0 else 0]: [0] at
    the first entry, the limit of the entry just left afterwards.  The
    test [annual_income <= limit] holds for every number when the limit
    is [float("inf")], so the loop never leaves such an entry and the
    limit it hands on is always a number.  The final [0] is the
    [return 0] after the loop. *)
Fixpoint business_scan (annual_income lower_bound : Q) (slabs : list slab) : Q :=
  match slabs with
  | [] => 0
  | (Finite limit, base_tax, rate) :: slabs' =>
      if Py.le annual_income limit
      then base_tax + (annual_income - lower_bound) * rate
      else business_scan annual_income limit slabs'
  | (Infinite, base_tax, rate) :: _ =>
      base_tax + (annual_income - lower_bound) * rate
  end.

(** Progressive tax calculation for business income. *)
Definition calculate_business_tax (annual_income : Q) : Q :=
  if Py.le annual_income 600000 then 0
  else business_scan annual_income 0 business_slabs.

(** Find nearest salaried tax slab based on income. *)
Fixpoint salaried_scan (annual_income : Q) (slabs : list Z) : option Z :=
  match slabs with
  | [] => None
  | slab :: slabs' =>
      if Py.le annual_income (inject_Z slab) then Some slab
      else salaried_scan annual_income slabs'
  end.

Definition get_salaried_tax (annual_income : Q) : Py.res Z :=
  let sorted_slabs := Py.sorted (Py.keys salary_slabs) in
  match salaried_scan annual_income sorted_slabs with
  | Some slab => Py.getitem salary_slabs slab
  | None => top <- Py.last sorted_slabs ;; Py.getitem salary_slabs top
  end.

(** ** The rebate calculator *)

(** The local variables of [pension_tax_calculator] at the point where
    it builds the dictionary it returns. *)
Record locals : Type := {
  tax_2026 : Q;
  avg_tax_rate : Q;
  max_invest : Q;
  invest : Q;
  rebate : Q;
  new_tax : Q
}.

(** The dictionary [pension_tax_calculator] returns; every numeric entry
    is a whole number, the value of a [round(_, 0)]. *)
Record result : Type := {
  Income_Type : string;
  Annual_Income : Z;
  Monthly_Income : Z;
  Tax_Without_Pension : Z;
  Max_Pension_Investment : Z;
  Your_Pension_Investment : Z;
  Tax_Saving : Z;
  New_Tax_Payable : Z;
  Monthly_Saving : Z
}.

(** The body of [pension_tax_calculator] down to [new_tax]; [None] is
    one of its two [return None]. *)
Definition pension_locals (income_type : string) (annual_income : Q)
    (pension_invest : option Q) : Py.res (option locals) :=
  resolved <-
    (if (income_type =? "salaried")%string then
       tax <- get_salaried_tax annual_income ;; Py.Return (Some (inject_Z tax))
     else if (income_type =? "business")%string then
       Py.Return (Some (calculate_business_tax annual_income))
     else Py.Return None) ;;
  match resolved with
  | None => Py.Return None
  | Some tax_2026 =>
      if Py.eq annual_income 0 then Py.Return None
      else
        avg_tax_rate <-
          (if Py.lt 0 tax_2026 then Py.truediv tax_2026 annual_income
           else Py.Return 0) ;;
        let max_invest := 0.20 * annual_income in
        let invest :=
          match pension_invest with
          | None => max_invest
          | Some requested =>
              if Py.eq requested 0 then max_invest
              else Py.min requested max_invest
          end in
        let rebate := invest * avg_tax_rate in
        let new_tax := tax_2026 - rebate in
        Py.Return (Some {| tax_2026 := tax_2026;
                           avg_tax_rate := avg_tax_rate;
                           max_invest := max_invest;
                           invest := invest;
                           rebate := rebate;
                           new_tax := new_tax |})
  end.

(** The [return {...}] of [pension_tax_calculator]. *)
Definition build_result (income_type : string) (annual_income : Q)
    (l : locals) : Py.res result :=
  monthly_income <- Py.truediv annual_income 12 ;;
  monthly_saving <- Py.truediv (rebate l) 12 ;;
  Py.Return {| Income_Type := Py.title income_type;
               Annual_Income := Py.round annual_income;
               Monthly_Income := Py.round monthly_income;
               Tax_Without_Pension := Py.round (tax_2026 l);
               Max_Pension_Investment := Py.round (max_invest l);
               Your_Pension_Investment := Py.round (invest l);
               Tax_Saving := Py.round (rebate l);
               New_Tax_Payable := Py.round (new_tax l);
               Monthly_Saving := Py.round monthly_saving |}.

Definition pension_tax_calculator (income_type : string) (annual_income : Q)
    (pension_invest : option Q) : Py.res (option result) :=
  state <- pension_locals income_type annual_income pension_invest ;;
  match state with
  | None => Py.Return None
  | Some l =>
      r <- build_result income_type annual_income l ;; Py.Return (Some r)
  end.

(** ** Vocabulary of the specification *)

(** The two recognised classifications. *)
Definition valid (income_type : string) : Prop :=
  income_type = "salaried"%string \/ income_type = "business"%string.

(** [b] is the smallest bound of the salary table that is not below the
    income. *)
Definition least_bound (income : Q) (b : Z) : Prop :=
  In b (Py.keys salary_slabs) /\
  income <= inject_Z b /\
  forall b', In b' (Py.keys salary_slabs) ->
             income <= inject_Z b' -> (b <= b')%Z.

(** A table whose taxes grow with its bounds. *)
Definition table_monotone (d : Py.dict) : bool :=
  forallb (fun p =>
    forallb (fun q => implb (fst p <=? fst q)%Z (snd p <=? snd q)%Z) d) d.

(** Bracket [i] of the business table, and the bound of the bracket
    before it: [0] before the first bracket. *)
Definition bracket (i : nat) : option slab := nth_error business_slabs i.

Definition bound_of_previous_bracket (i : nat) : option Q :=
  match i with
  | O => Some 0
  | S j =>
      match bracket j with
      | Some (Finite bound, _, _) => Some bound
      | _ => None
      end
  end.

(** [income] is at most the bound; every income is at most the infinite
    bound. *)
Definition within (income : Q) (l : limit) : Prop :=
  match l with
  | Finite bound => income <= bound
  | Infinite => True
  end.

(** Bracket [i] is the first one whose bound is not below the income. *)
Definition first_bracket (income : Q) (i : nat) (s : slab) : Prop :=
  bracket i = Some s /\
  within income (slab_limit s) /\
  forall j s', (j < i)%nat -> bracket j = Some s' ->
               ~ within income (slab_limit s').

(** The formula of a bracket, from a given lower bound. *)
Definition bracket_formula (s : slab) (lower_bound income : Q) : Q :=
  slab_base_tax s + (income - lower_bound) * slab_rate s.

(** The dictionary built from the locals; dividing by [12] cannot
    raise. *)
Definition dictionary (income_type : string) (x : Q) (l : locals) : result :=
  {| Income_Type := Py.title income_type;
     Annual_Income := Py.round x;
     Monthly_Income := Py.round (x / 12);
     Tax_Without_Pension := Py.round (tax_2026 l);
     Max_Pension_Investment := Py.round (max_invest l);
     Your_Pension_Investment := Py.round (invest l);
     Tax_Saving := Py.round (rebate l);
     New_Tax_Payable := Py.round (new_tax l);
     Monthly_Saving := Py.round (rebate l / 12) |}.



(** ** The calculator with its conversions *)

(** The definitions above compute on the numbers themselves.  The
    source mixes [int]s and [float]s: line 55 multiplies the income
    less a bound by a rate, line 79 divides a business tax by the
    income, line 80 multiplies the income by [0.20] and line 87
    multiplies the investment by an average rate that is a quotient.
    Each converts its [int] operand to a [float] first.  The functions
    that do so are repeated here with these conversions in place; the
    salaried quotient of line 79 divides two [int]s, or an [int] tax
    by a [float], and converts nothing that can fail.  The first
    bracket, whose rate is the [int] 0, lies behind the guard of line
    50 and is never the one whose formula runs. *)
Module Converting.

Fixpoint business_scan (annual_income lower_bound : Q) (slabs : list slab)
    : Py.res Q :=
  match slabs with
  | [] => Py.Return 0
  | (Finite limit, base_tax, rate) :: slabs' =>
      if Py.le annual_income limit
      then above <- Py.to_float (annual_income - lower_bound) ;;
           Py.Return (base_tax + above * rate)
      else business_scan annual_income limit slabs'
  | (Infinite, base_tax, rate) :: _ =>
      above <- Py.to_float (annual_income - lower_bound) ;;
      Py.Return (base_tax + above * rate)
  end.

Definition calculate_business_tax (annual_income : Q) : Py.res Q :=
  if Py.le annual_income 600000 then Py.Return 0
  else business_scan annual_income 0 business_slabs.

Definition pension_locals (income_type : string) (annual_income : Q)
    (pension_invest : option Q) : Py.res (option locals) :=
  resolved <-
    (if (income_type =? "salaried")%string then
       tax <- get_salaried_tax annual_income ;; Py.Return (Some (inject_Z tax))
     else if (income_type =? "business")%string then
       tax <- calculate_business_tax annual_income ;; Py.Return (Some tax)
     else Py.Return None) ;;
  match resolved with
  | None => Py.Return None
  | Some tax_2026 =>
      if Py.eq annual_income 0 then Py.Return None
      else
        avg_tax_rate <-
          (if Py.lt 0 tax_2026 then
             divisor <-
               (if (income_type =? "salaried")%string
                then Py.Return annual_income
                else Py.to_float annual_income) ;;
             Py.truediv tax_2026 divisor
           else Py.Return 0) ;;
        income <- Py.to_float annual_income ;;
        let max_invest := 0.20 * income in
        let invest :=
          match pension_invest with
          | None => max_invest
          | Some requested =>
              if Py.eq requested 0 then max_invest
              else Py.min requested max_invest
          end in
        rebate <-
          (if Py.lt 0 tax_2026 then
             amount <- Py.to_float invest ;; Py.Return (amount * avg_tax_rate)
           else Py.Return (invest * avg_tax_rate)) ;;
        let new_tax := tax_2026 - rebate in
        Py.Return (Some {| tax_2026 := tax_2026;
                           avg_tax_rate := avg_tax_rate;
                           max_invest := max_invest;
                           invest := invest;
                           rebate := rebate;
                           new_tax := new_tax |})
  end.

Definition pension_tax_calculator (income_type : string) (annual_income : Q)
    (pension_invest : option Q) : Py.res (option result) :=
  state <- pension_locals income_type annual_income pension_invest ;;
  match state with
  | None => Py.Return None
  | Some l =>
      r <- build_result income_type annual_income l ;; Py.Return (Some r)
  end.

End Converting.

(** The request absent, or one a float can hold. *)
Definition request_fits (p : option Q) : Prop :=
  match p with
  | None => True
  | Some requested => Py.fits requested = true
  end.

(** ** The PDF report *)

(** A value of the dictionary: the label, or a number. *)
Inductive value : Type :=
| Text (s : string)
| Number (z : Z).

(** [result_dict.items()]: the entries of the dictionary in the order
    in which [pension_tax_calculator] writes them. *)
Definition items (r : result) : list (string * value) :=
  [ ("Income Type", Text (Income_Type r));
    ("Annual Income", Number (Annual_Income r));
    ("Monthly Income", Number (Monthly_Income r));
    ("Tax Without Pension", Number (Tax_Without_Pension r));
    ("Max Pension Investment (20%)", Number (Max_Pension_Investment r));
    ("Your Pension Investment", Number (Your_Pension_Investment r));
    ("Tax Saving", Number (Tax_Saving r));
    ("New Tax Payable", Number (New_Tax_Payable r));
    ("Monthly Saving", Number (Monthly_Saving r)) ]%string.

(** What [export_pdf] asks of the canvas. *)
Inductive command : Type :=
| SetFont (name : string) (size : Z)
| DrawString (x y : Z) (text : string)
| Save.

(** The title, whose first nine bytes are not ASCII. *)
Definition report_title : string :=
  (string_of_list_ascii
     (map ascii_of_nat [239; 163; 191; 195; 188; 195; 172; 195; 164]%nat)
   ++ " Pension Fund Tax Report (Pakistan 2026)")%string.

Section Report.

(** [f"{v:,}"], the number with thousands separators. *)
Variable format_commas : Z -> string.

(** The text of one line: [f"{k}: {v:,}"] for a number, [f"{k}: {v}"]
    otherwise. *)
Definition line (k : string) (v : value) : string :=
  match v with
  | Number z => (k ++ ": " ++ format_commas z)%string
  | Text s => (k ++ ": " ++ s)%string
  end.

(** The [for k, v in result_dict.items()] loop, with [y] as it stands. *)
Fixpoint draw_items (y : Z) (d : list (string * value)) : list command :=
  match d with
  | [] => []
  | (k, v) :: d' => DrawString 50 y (line k v) :: draw_items (y - 20) d'
  end.

(** The canvas calls of [export_pdf], in order. *)
Definition export_pdf (result_dict : list (string * value)) : list command :=
  SetFont "Helvetica" 12
  :: DrawString 200 780 report_title
  :: draw_items 750 result_dict ++ [Save].

End Report.

(** ** The page *)

(** What the page shows once "Calculate Tax" is pressed: the metrics of
    a result, or the error message. *)
Inductive report : Type :=
| Complete (r : result)
| InvalidInput.

(** One run of the script: the maximum shown by [st.info], and the
    report if the button was pressed. *)
Record page : Type := {
  max_invest_info : Q;
  shown : option report
}.

(** The script from the two radio buttons on.  [entered] is the whole
    number in the income box that the chosen input type shows,
    [pension_invest] the number in the investment box and [calculate]
    the state of the button. *)
Definition run_page (income_type income_input_type : string) (entered : Z)
    (pension_invest : Q) (calculate : bool) : Py.res page :=
  incomes <-
    (if (income_input_type =? "Monthly")%string then
       let monthly_income := entered in
       let annual_income := (monthly_income * 12)%Z in
       Py.Return (inject_Z annual_income, inject_Z monthly_income)
     else
       let annual_income := inject_Z entered in
       monthly_income <- Py.truediv annual_income 12 ;;
       Py.Return (annual_income, monthly_income)) ;;
  let annual_income := fst incomes in
  let max_invest := 0.20 * annual_income in
  if calculate then
    result <- pension_tax_calculator income_type annual_income
                (Some pension_invest) ;;
    match result with
    | Some r =>
        Py.Return {| max_invest_info := max_invest;
                     shown := Some (Complete r) |}
    | None =>
        Py.Return {| max_invest_info := max_invest;
                     shown := Some InvalidInput |}
    end
  else Py.Return {| max_invest_info := max_invest; shown := None |}.

(** What the widgets allow: the options of the two radio buttons and
    the [min_value] of the number inputs. *)
Definition widgets_allow (income_type income_input_type : string)
    (entered : Z) (pension_invest : Q) : Prop :=
  valid income_type /\
  ((income_input_type = "Monthly"%string /\ (10000 <= entered)%Z) \/
   (income_input_type = "Annual"%string /\ (100000 <= entered)%Z)) /\
  0 <= pension_invest.

(** ** Vocabulary of the further properties *)

(** Entry [i] of the salary table, in the order of the source. *)
Definition slab_at (i : nat) : option (Z * Z) := nth_error salary_slabs i.

(** The dictionary of the salaried scenario: annual income 1200000, no
    request. *)
Definition scenario_result : result :=
  {| Income_Type := "Salaried";
     Annual_Income := 1200000;
     Monthly_Income := 100000;
     Tax_Without_Pension := 6000;
     Max_Pension_Investment := 240000;
     Your_Pension_Investment := 240000;
     Tax_Saving := 1200;
     New_Tax_Payable := 4800;
     Monthly_Saving := 100 |}.

(** * Proofs *)

(** ** Worked examples *)

Example business_2400000 : calculate_business_tax 2400000 == 270000.
Proof. vm_compute. reflexivity. Qed.

Example salaried_1200000 : get_salaried_tax 1200000 = Py.Return 6000%Z.
Proof. vm_compute. reflexivity. Qed.

Example example_salaried_no_request :
  pension_tax_calculator "salaried" 1200000 None =
  Py.Return (Some {| Income_Type := "Salaried";
                     Annual_Income := 1200000;
                     Monthly_Income := 100000;
                     Tax_Without_Pension := 6000;
                     Max_Pension_Investment := 240000;
                     Your_Pension_Investment := 240000;
                     Tax_Saving := 1200;
                     New_Tax_Payable := 4800;
                     Monthly_Saving := 100 |}).
Proof. vm_compute. reflexivity. Qed.

(** ** Facts about the operators *)

Lemma le_true (x y : Q) : Py.le x y = true <-> x <= y.
Proof. unfold Py.le. apply Qle_bool_iff. Qed.

Lemma le_false (x y : Q) : Py.le x y = false <-> y < x.
Proof.
  unfold Py.le. split; intro H.
  - apply Qnot_le_lt. intro C. apply Qle_bool_iff in C. congruence.
  - destruct (Qle_bool x y) eqn:E; [| reflexivity].
    apply Qle_bool_iff in E. lra.
Qed.

Lemma lt_true (x y : Q) : Py.lt x y = true <-> x < y.
Proof.
  unfold Py.lt. rewrite negb_true_iff. apply (le_false y x).
Qed.

Lemma lt_false (x y : Q) : Py.lt x y = false <-> y <= x.
Proof.
  unfold Py.lt. rewrite negb_false_iff. apply (le_true y x).
Qed.

Lemma eq_true (x y : Q) : Py.eq x y = true <-> x == y.
Proof. unfold Py.eq. apply Qeq_bool_iff. Qed.

Lemma eq_false (x y : Q) : Py.eq x y = false <-> ~ x == y.
Proof.
  unfold Py.eq. split; intro H.
  - intro C. apply Qeq_bool_iff in C. congruence.
  - destruct (Qeq_bool x y) eqn:E; [| reflexivity].
    apply Qeq_bool_iff in E. contradiction.
Qed.

(** Case analysis on one comparison of the goal, the outcome recorded
    as an inequality. *)
Ltac py_case :=
  match goal with
  | |- context [Py.le ?x ?y] =>
      let E := fresh "E" in
      destruct (Py.le x y) eqn:E;
      [apply le_true in E | apply le_false in E]
  | |- context [Py.lt ?x ?y] =>
      let E := fresh "E" in
      destruct (Py.lt x y) eqn:E;
      [apply lt_true in E | apply lt_false in E]
  | |- context [Py.eq ?x ?y] =>
      let E := fresh "E" in
      destruct (Py.eq x y) eqn:E;
      [apply eq_true in E | apply eq_false in E]
  end.


Lemma min_le_l (a b : Q) : Py.min a b <= a.
Proof. unfold Py.min. py_case; lra. Qed.


Lemma truediv_nonzero (x y : Q) :
  ~ y == 0 -> Py.truediv x y = Py.Return (x / y).
Proof.
  intro H. unfold Py.truediv. apply eq_false in H. now rewrite H.
Qed.

(** [round] stays within a half of its argument, is monotone, and fixes
    the whole numbers. *)
Lemma round_near (x : Q) :
  x - (1 # 2) <= inject_Z (Py.round x) <= x + (1 # 2).
Proof.
  pose proof (Qfloor_le x) as Hlo.
  pose proof (Qlt_floor x) as Hhi.
  rewrite inject_Z_plus in Hhi. change (inject_Z 1) with 1 in Hhi.
  unfold Py.round.
  repeat py_case; try destruct (Z.even (Qfloor x));
    rewrite ?inject_Z_plus; change (inject_Z 1) with 1; lra.
Qed.

Lemma round_whole (z : Z) : Py.round (inject_Z z) = z.
Proof.
  unfold Py.round. rewrite Qfloor_Z.
  py_case; [reflexivity | lra].
Qed.

Lemma round_mono (x y : Q) : x <= y -> (Py.round x <= Py.round y)%Z.
Proof.
  intro Hxy.
  pose proof (Qfloor_resp_le x y Hxy) as Hf.
  destruct (Z.eq_dec (Qfloor x) (Qfloor y)) as [Heq | Hne].
  - unfold Py.round. rewrite Heq.
    repeat py_case; destruct (Z.even (Qfloor y));
      first [lia | exfalso; lra].
  - assert (Hx : (Py.round x <= Qfloor x + 1)%Z).
    { unfold Py.round.
      repeat py_case; destruct (Z.even (Qfloor x)); lia. }
    assert (Hy : (Qfloor y <= Py.round y)%Z).
    { unfold Py.round.
      repeat py_case; destruct (Z.even (Qfloor y)); lia. }
    lia.
Qed.

(** A whole number between two rationals a half apart from it. *)
Lemma whole_le (a b : Z) : inject_Z a < inject_Z b + 1 -> (a <= b)%Z.
Proof.
  intro H.
  assert (A : inject_Z a < inject_Z (b + 1)).
  { rewrite inject_Z_plus. exact H. }
  rewrite <- Zlt_Qlt in A. lia.
Qed.

(** ** Facts about the containers *)

(** [sorted] returns its argument rearranged in ascending order. *)
Lemma insert_perm (x : Z) (l : list Z) : Permutation (Py.insert x l) (x :: l).
Proof.
  induction l as [| y l IH]; simpl.
  - apply Permutation_refl.
  - destruct (x <=? y)%Z.
    + apply Permutation_refl.
    + eapply perm_trans; [apply perm_skip, IH | apply perm_swap].
Qed.

Lemma sorted_perm (l : list Z) : Permutation (Py.sorted l) l.
Proof.
  induction l as [| x l IH]; simpl.
  - apply perm_nil.
  - eapply perm_trans; [apply insert_perm | apply perm_skip, IH].
Qed.

Lemma insert_ascending (x : Z) (l : list Z) :
  StronglySorted Z.le l -> StronglySorted Z.le (Py.insert x l).
Proof.
  induction 1 as [| y l Hl IH Hy]; simpl.
  - repeat constructor.
  - destruct (x <=? y)%Z eqn:E.
    + apply Z.leb_le in E. constructor.
      * now constructor.
      * constructor; [exact E |].
        eapply Forall_impl; [| exact Hy]. intros; lia.
    + apply Z.leb_gt in E. constructor; [exact IH |].
      eapply Permutation_Forall;
        [apply Permutation_sym, insert_perm |].
      constructor; [lia | exact Hy].
Qed.

Lemma sorted_ascending (l : list Z) : StronglySorted Z.le (Py.sorted l).
Proof.
  induction l as [| x l IH]; simpl.
  - constructor.
  - now apply insert_ascending.
Qed.

(** A key that is present once is found with its value. *)
Lemma getitem_In (d : Py.dict) (k v : Z) :
  NoDup (Py.keys d) -> In (k, v) d -> Py.getitem d k = Py.Return v.
Proof.
  induction d as [| [k' v'] d IH]; simpl; intros Hnd Hin.
  - contradiction.
  - inversion Hnd as [| ? ? Hnotin Hnd']; subst.
    destruct Hin as [Heq | Hin].
    + inversion Heq; subst. now rewrite Z.eqb_refl.
    + destruct (k' =? k)%Z eqn:E.
      * apply Z.eqb_eq in E. subst k'. exfalso. apply Hnotin.
        change k with (fst (k, v)). now apply in_map.
      * now apply IH.
Qed.

(** In a strictly ascending list, what follows an element exceeds it. *)
Lemma ascending_tail (l1 l2 : list Z) (b : Z) :
  StronglySorted Z.lt (l1 ++ b :: l2) -> Forall (Z.lt b) l2.
Proof.
  induction l1 as [| a l1 IH]; simpl; intro H;
    inversion H; subst; auto.
Qed.

(** ** Facts about the salaried scan *)

Lemma salaried_scan_Some (x : Q) (l : list Z) (b : Z) :
  salaried_scan x l = Some b ->
  exists l1 l2,
    l = l1 ++ b :: l2 /\
    Forall (fun c => inject_Z c < x) l1 /\
    x <= inject_Z b.
Proof.
  induction l as [| c l IH]; simpl; [discriminate |].
  py_case; intro H.
  - inversion H; subst. exists [], l. auto.
  - destruct (IH H) as (l1 & l2 & -> & Hall & Hle).
    exists (c :: l1), l2. auto.
Qed.

Lemma salaried_scan_None (x : Q) (l : list Z) :
  salaried_scan x l = None -> Forall (fun c => inject_Z c < x) l.
Proof.
  induction l as [| c l IH]; simpl; [constructor |].
  py_case; intro H; [discriminate | auto].
Qed.

Lemma sorted_slabs_eq :
  Py.sorted (Py.keys salary_slabs) = Py.keys salary_slabs.
Proof. reflexivity. Qed.

Lemma salary_keys_ascending : StronglySorted Z.lt (Py.keys salary_slabs).
Proof. simpl. repeat (constructor; [| repeat constructor; lia]). constructor. Qed.

Lemma salary_keys_NoDup : NoDup (Py.keys salary_slabs).
Proof.
  simpl. repeat (constructor; [simpl; lia |]). constructor.
Qed.

Lemma salary_slabs_monotone (b t b' t' : Z) :
  In (b, t) salary_slabs -> In (b', t') salary_slabs ->
  (b <= b')%Z -> (t <= t')%Z.
Proof.
  intros Hp Hq Hle.
  assert (M : table_monotone salary_slabs = true) by (vm_compute; reflexivity).
  unfold table_monotone in M.
  rewrite forallb_forall in M. specialize (M _ Hp).
  rewrite forallb_forall in M. specialize (M _ Hq).
  simpl in M. apply Z.leb_le in Hle. rewrite Hle in M.
  simpl in M. now apply Z.leb_le.
Qed.

Lemma salary_slabs_top (b t : Z) :
  In (b, t) salary_slabs -> (b <= 36000000)%Z /\ (t <= 12848850)%Z.
Proof.
  intro H.
  assert (M : forallb (fun p => (fst p <=? 36000000)%Z
                                && (snd p <=? 12848850)%Z) salary_slabs = true)
    by (vm_compute; reflexivity).
  rewrite forallb_forall in M. specialize (M _ H). simpl in M.
  apply andb_true_iff in M. destruct M as [M1 M2].
  apply Z.leb_le in M1, M2. auto.
Qed.

(** What [get_salaried_tax] returns: the tax of the least bound that is
    not below the income, or the tax of the top bound when the income
    is above every bound. *)
Lemma salaried_resolve (x : Q) :
  (exists b t,
      In (b, t) salary_slabs /\
      x <= inject_Z b /\
      (forall b', In b' (Py.keys salary_slabs) ->
                  x <= inject_Z b' -> (b <= b')%Z) /\
      get_salaried_tax x = Py.Return t)
  \/ (inject_Z 36000000 < x /\
      get_salaried_tax x = Py.Return 12848850%Z).
Proof.
  unfold get_salaried_tax. rewrite sorted_slabs_eq.
  destruct (salaried_scan x (Py.keys salary_slabs)) as [b |] eqn:Hscan.
  - left.
    destruct (salaried_scan_Some _ _ _ Hscan) as (l1 & l2 & Hsplit & Hbelow & Hle).
    assert (Hkey : In b (Py.keys salary_slabs)).
    { rewrite Hsplit. apply in_or_app. right. now left. }
    unfold Py.keys in Hkey. apply in_map_iff in Hkey.
    destruct Hkey as ([b0 t] & Hfst & Hin). simpl in Hfst. subst b0.
    exists b, t. repeat split; auto.
    + intros b' Hb' Hxb'.
      rewrite Hsplit in Hb'. apply in_app_or in Hb'.
      destruct Hb' as [Hb' | [Hb' | Hb']].
      * rewrite Forall_forall in Hbelow. specialize (Hbelow _ Hb'). lra.
      * lia.
      * pose proof salary_keys_ascending as Hasc. rewrite Hsplit in Hasc.
        apply ascending_tail in Hasc. rewrite Forall_forall in Hasc.
        specialize (Hasc _ Hb'). lia.
    + apply getitem_In; [apply salary_keys_NoDup | exact Hin].
  - right. apply salaried_scan_None in Hscan.
    rewrite Forall_forall in Hscan. split.
    + apply Hscan. simpl. tauto.
    + reflexivity.
Qed.

(** The least bound not below an income is unique. *)
Lemma least_bound_unique (x : Q) (b b' : Z) :
  In b (Py.keys salary_slabs) -> In b' (Py.keys salary_slabs) ->
  x <= inject_Z b -> x <= inject_Z b' ->
  (forall c, In c (Py.keys salary_slabs) -> x <= inject_Z c -> (b <= c)%Z) ->
  (forall c, In c (Py.keys salary_slabs) -> x <= inject_Z c -> (b' <= c)%Z) ->
  b = b'.
Proof.
  intros Hb Hb' Hx Hx' Hmin Hmin'.
  specialize (Hmin _ Hb' Hx'). specialize (Hmin' _ Hb Hx). lia.
Qed.

Lemma salary_slabs_functional (b t t' : Z) :
  In (b, t) salary_slabs -> In (b, t') salary_slabs -> t = t'.
Proof.
  intros H H'.
  pose proof (getitem_In _ _ _ salary_keys_NoDup H) as E.
  pose proof (getitem_In _ _ _ salary_keys_NoDup H') as E'.
  congruence.
Qed.

(** ** Facts about the business resolver *)


(** Bracket [i] is the answer: it holds the income, no earlier bracket
    does, and the scan has stopped at its formula. *)
Ltac found i :=
  eexists i, _, _; split;
  [ split; [reflexivity | split; [cbn; try lra; exact I |]];
    let j := fresh "j" in let Hj := fresh "Hj" in
    let s := fresh "s" in let Hs := fresh "Hs" in
    intros j s Hj Hs;
    do 8 (destruct j as [| j];
          [first [lia | inversion Hs; subst; cbn; intro; lra] |]);
    lia
  | split; [reflexivity | split; [lra | reflexivity]] ].

(** An income above 600000 is taxed by the formula of the first bracket
    that holds it, counted from the bound before that bracket. *)
Lemma business_resolve (income : Q) :
  600000 < income ->
  exists i s lower_bound,
    first_bracket income i s /\
    bound_of_previous_bracket i = Some lower_bound /\
    lower_bound < income /\
    calculate_business_tax income = bracket_formula s lower_bound income.
Proof.
  intro Hinc.
  unfold calculate_business_tax.
  destruct (Py.le income 600000) eqn:E0; [apply le_true in E0; lra |].
  clear E0. unfold business_slabs at 1. cbn [business_scan].
  py_case; [exfalso; lra |].
  py_case; [found 1%nat |].
  py_case; [found 2%nat |].
  py_case; [found 3%nat |].
  py_case; [found 4%nat |].
  py_case; [found 5%nat |].
  py_case; [found 6%nat |].
  found 7%nat.
Qed.

(** ** Facts about the resolved tax *)

Lemma salary_slabs_values (b t : Z) :
  In (b, t) salary_slabs -> (0 <= t)%Z.
Proof.
  intro H.
  assert (M : forallb (fun p => (0 <=? snd p)%Z) salary_slabs = true)
    by (vm_compute; reflexivity).
  rewrite forallb_forall in M. specialize (M _ H). simpl in M.
  now apply Z.leb_le in M.
Qed.

(** [get_salaried_tax] never raises, and the tax is not negative. *)
Lemma salaried_total (x : Q) :
  exists t, get_salaried_tax x = Py.Return t /\ (0 <= t)%Z.
Proof.
  destruct (salaried_resolve x) as [(b & t & Hin & _ & _ & Hget) | [_ Hget]].
  - exists t. split; [exact Hget |]. now apply salary_slabs_values with b.
  - exists 12848850%Z. split; [exact Hget | lia].
Qed.

Lemma business_low (x : Q) : x <= 600000 -> calculate_business_tax x = 0.
Proof.
  intro H. unfold calculate_business_tax.
  apply le_true in H. now rewrite H.
Qed.

Lemma business_slabs_values (s : slab) :
  In s business_slabs -> 0 <= slab_base_tax s /\ 0 <= slab_rate s.
Proof.
  simpl. intro H.
  repeat (destruct H as [<- | H]; [cbn; split; lra |]).
  contradiction.
Qed.

Lemma business_nonneg (x : Q) : 0 <= calculate_business_tax x.
Proof.
  destruct (Qlt_le_dec 600000 x) as [Hhigh | Hlow].
  - destruct (business_resolve x Hhigh)
      as (i & s & lower & (Hi & _ & _) & _ & Hlower & ->).
    apply nth_error_In in Hi.
    destruct (business_slabs_values s Hi) as [Hbase Hrate].
    unfold bracket_formula.
    assert (0 <= (x - lower) * slab_rate s).
    { apply Qmult_le_0_compat; lra. }
    lra.
  - rewrite (business_low x Hlow). lra.
Qed.

(** ** Facts about the calculator *)

(** On a valid classification and an income other than zero the body
    reaches [new_tax] without raising, with these locals. *)
Lemma locals_valid (income_type : string) (x : Q) (p : option Q) :
  valid income_type -> ~ x == 0 ->
  exists l,
    pension_locals income_type x p = Py.Return (Some l) /\
    0 <= tax_2026 l /\
    (income_type = "salaried"%string ->
       exists t, get_salaried_tax x = Py.Return t /\
                 tax_2026 l = inject_Z t) /\
    (income_type = "business"%string ->
       tax_2026 l = calculate_business_tax x) /\
    avg_tax_rate l = (if Py.lt 0 (tax_2026 l) then tax_2026 l / x else 0) /\
    max_invest l = 0.20 * x /\
    invest l = match p with
               | None => max_invest l
               | Some requested =>
                   if Py.eq requested 0 then max_invest l
                   else Py.min requested (max_invest l)
               end /\
    rebate l = invest l * avg_tax_rate l /\
    new_tax l = tax_2026 l - rebate l.
Proof.
  intros [-> | ->] Hx; unfold pension_locals.
  - destruct (salaried_total x) as (t & Hget & Ht).
    cbn [String.eqb Ascii.eqb Bool.eqb]. rewrite Hget. cbn [Py.bind].
    apply eq_false in Hx. rewrite Hx.
    destruct (Py.lt 0 (inject_Z t)) eqn:E.
    + apply eq_false in Hx. rewrite (truediv_nonzero _ _ Hx). cbn [Py.bind].
      eexists. split; [reflexivity |]. cbn.
      rewrite E. repeat split; try reflexivity.
      * apply lt_true in E. lra.
      * intros _. exists t. auto.
      * discriminate.
    + cbn [Py.bind].
      eexists. split; [reflexivity |]. cbn.
      rewrite E. repeat split; try reflexivity.
      * change 0 with (inject_Z 0). rewrite <- Zle_Qle. exact Ht.
      * intros _. exists t. auto.
      * discriminate.
  - cbn [String.eqb Ascii.eqb Bool.eqb]. cbn [Py.bind].
    pose proof (business_nonneg x) as Hnn.
    apply eq_false in Hx. rewrite Hx.
    destruct (Py.lt 0 (calculate_business_tax x)) eqn:E.
    + apply eq_false in Hx. rewrite (truediv_nonzero _ _ Hx). cbn [Py.bind].
      eexists. split; [reflexivity |]. cbn.
      rewrite E. repeat split; try reflexivity; try discriminate; auto.
    + cbn [Py.bind].
      eexists. split; [reflexivity |]. cbn.
      rewrite E. repeat split; try reflexivity; try discriminate; auto.
Qed.

Lemma calculator_of_locals (income_type : string) (x : Q) (p : option Q)
    (l : locals) :
  pension_locals income_type x p = Py.Return (Some l) ->
  pension_tax_calculator income_type x p =
  Py.Return (Some (dictionary income_type x l)).
Proof.
  intro H. unfold pension_tax_calculator. rewrite H. reflexivity.
Qed.

Lemma calculator_of_no_locals (income_type : string) (x : Q) (p : option Q) :
  pension_locals income_type x p = Py.Return None ->
  pension_tax_calculator income_type x p = Py.Return None.
Proof.
  intro H. unfold pension_tax_calculator. rewrite H. reflexivity.
Qed.

Lemma locals_unrecognised (income_type : string) (x : Q) (p : option Q) :
  income_type <> "salaried"%string -> income_type <> "business"%string ->
  pension_locals income_type x p = Py.Return None.
Proof.
  intros Hs Hb. unfold pension_locals.
  apply String.eqb_neq in Hs, Hb. rewrite Hs, Hb. reflexivity.
Qed.

Lemma locals_zero_income (income_type : string) (x : Q) (p : option Q) :
  x == 0 -> pension_locals income_type x p = Py.Return None.
Proof.
  intro Hx. apply eq_true in Hx. unfold pension_locals.
  destruct (income_type =? "salaried")%string.
  - destruct (salaried_total x) as (t & -> & _).
    cbn [Py.bind]. now rewrite Hx.
  - destruct (income_type =? "business")%string.
    + cbn [Py.bind]. now rewrite Hx.
    + reflexivity.
Qed.

(** The average rate is the base tax over the income, and is not
    negative on a positive income. *)
Lemma average_rate (l : locals) (income : Q) :
  0 < income -> 0 <= tax_2026 l ->
  avg_tax_rate l = (if Py.lt 0 (tax_2026 l) then tax_2026 l / income else 0) ->
  avg_tax_rate l * income == tax_2026 l /\
  0 <= avg_tax_rate l /\
  (0 < tax_2026 l -> 0 < avg_tax_rate l).
Proof.
  intros Hinc Hnn ->.
  destruct (Py.lt 0 (tax_2026 l)) eqn:E.
  - apply lt_true in E.
    assert (Hpos : 0 < tax_2026 l / income).
    { apply Qlt_shift_div_l; lra. }
    repeat split; try lra.
    field. lra.
  - apply lt_false in E. repeat split; lra.
Qed.

(** On the numbers themselves the body never raises: it returns no
    result exactly for an unrecognised classification or a zero income,
    and a dictionary otherwise. *)
Lemma calculator_outcome (income_type : string) (income : Q) (p : option Q) :
  (forall e, pension_tax_calculator income_type income p <> Py.Raise e) /\
  (pension_tax_calculator income_type income p = Py.Return None <->
   (income_type <> "salaried"%string /\ income_type <> "business"%string)
   \/ income == 0) /\
  ((income_type = "salaried"%string \/ income_type = "business"%string) ->
   ~ income == 0 ->
   exists r, pension_tax_calculator income_type income p
             = Py.Return (Some r)).
Proof.
  assert (Hsome : valid income_type -> ~ income == 0 ->
                  exists r, pension_tax_calculator income_type income p
                            = Py.Return (Some r)).
  { intros Hv Hnz.
    destruct (locals_valid income_type income p Hv Hnz) as (l & Hl & _).
    eexists. apply (calculator_of_locals _ _ _ _ Hl). }
  assert (Hnone : (income_type <> "salaried"%string /\
                   income_type <> "business"%string) \/ income == 0 ->
                  pension_tax_calculator income_type income p
                  = Py.Return None).
  { intros [[Hs Hb] | Hz]; apply calculator_of_no_locals.
    - now apply locals_unrecognised.
    - now apply locals_zero_income. }
  assert (Hcases : ((income_type <> "salaried"%string /\
                     income_type <> "business"%string) \/ income == 0)
                   \/ (valid income_type /\ ~ income == 0)).
  { destruct (Qeq_dec income 0) as [Hz | Hnz]; [left; now right |].
    destruct (String.eqb_spec income_type "salaried") as [Hs | Hs];
      [right; split; [now left | exact Hnz] |].
    destruct (String.eqb_spec income_type "business") as [Hb | Hb];
      [right; split; [now right | exact Hnz] |].
    left; left; auto. }
  split; [| split].
  - intros e. destruct Hcases as [Hbad | [Hv Hnz]].
    + rewrite (Hnone Hbad). discriminate.
    + destruct (Hsome Hv Hnz) as (r & ->). discriminate.
  - split; [| exact Hnone].
    intro Hret. destruct Hcases as [Hbad | [Hv Hnz]]; [exact Hbad |].
    destruct (Hsome Hv Hnz) as (r & Hr). congruence.
  - exact Hsome.
Qed.

(** ** Facts about the conversions *)

Lemma float_limit_large : 6000000 < Py.float_limit.
Proof. vm_compute. reflexivity. Qed.

Lemma fits_true (x : Q) :
  Py.fits x = true <-> - Py.float_limit < x /\ x < Py.float_limit.
Proof.
  unfold Py.fits. rewrite andb_true_iff, !lt_true. tauto.
Qed.

Lemma fits_false (x : Q) :
  Py.fits x = false <-> x <= - Py.float_limit \/ Py.float_limit <= x.
Proof.
  unfold Py.fits. rewrite andb_false_iff, !lt_false. tauto.
Qed.

Lemma to_float_fits (x : Q) : Py.fits x = true -> Py.to_float x = Py.Return x.
Proof. intro H. unfold Py.to_float. now rewrite H. Qed.

Lemma to_float_overflow (x : Q) :
  Py.fits x = false -> Py.to_float x = Py.Raise Py.OverflowError.
Proof. intro H. unfold Py.to_float. now rewrite H. Qed.

(** With its conversions the business resolver returns what it returns
    on the numbers themselves, or raises [OverflowError]; it returns
    whenever the income fits a float. *)
Lemma converting_business_cases (x : Q) :
  Converting.calculate_business_tax x = Py.Return (calculate_business_tax x)
  \/ Converting.calculate_business_tax x = Py.Raise Py.OverflowError.
Proof.
  unfold Converting.calculate_business_tax, calculate_business_tax,
    business_slabs.
  cbn [Converting.business_scan business_scan].
  repeat py_case; try (left; reflexivity);
    unfold Py.to_float;
    match goal with
    | |- context [Py.fits ?a] => destruct (Py.fits a)
    end; cbn [Py.bind]; auto.
Qed.

Lemma converting_business_fits (x : Q) :
  Py.fits x = true ->
  Converting.calculate_business_tax x = Py.Return (calculate_business_tax x).
Proof.
  intro Hfit. apply fits_true in Hfit. destruct Hfit as [Hlo Hhi].
  pose proof float_limit_large as Hlarge.
  unfold Converting.calculate_business_tax, calculate_business_tax,
    business_slabs.
  cbn [Converting.business_scan business_scan].
  repeat py_case; try reflexivity;
    (rewrite to_float_fits; [reflexivity | apply fits_true; lra]).
Qed.

(** The locals with the conversions: those computed on the numbers
    themselves, or an [OverflowError]. *)
Lemma converting_locals_cases (income_type : string) (x : Q) (p : option Q) :
  Converting.pension_locals income_type x p = pension_locals income_type x p
  \/ Converting.pension_locals income_type x p = Py.Raise Py.OverflowError.
Proof.
  unfold Converting.pension_locals, pension_locals.
  destruct (income_type =? "salaried")%string.
  - destruct (salaried_total x) as (t & -> & _). cbn [Py.bind].
    destruct (Py.eq x 0); [left; reflexivity |].
    destruct (Py.lt 0 (inject_Z t)); cbn [Py.bind];
      try destruct (Py.truediv (inject_Z t) x) as [e | a]; cbn [Py.bind];
      try (left; reflexivity);
      unfold Py.to_float; destruct (Py.fits x); cbn [Py.bind]; auto;
      match goal with
      | |- context [Py.fits ?a] => destruct (Py.fits a)
      end; cbn [Py.bind]; auto.
  - destruct (income_type =? "business")%string; [| left; reflexivity].
    destruct (converting_business_cases x) as [-> | ->];
      [| right; reflexivity].
    cbn [Py.bind].
    destruct (Py.eq x 0); [left; reflexivity |].
    destruct (Py.lt 0 (calculate_business_tax x)); cbn [Py.bind];
      unfold Py.to_float; destruct (Py.fits x); cbn [Py.bind]; auto;
      try destruct (Py.truediv (calculate_business_tax x) x) as [e | a];
      cbn [Py.bind]; auto;
      match goal with
      | |- context [Py.fits ?a] => destruct (Py.fits a)
      end; cbn [Py.bind]; auto.
Qed.

(** The investment fits a float when the income and the request do. *)
Lemma invest_fits (x : Q) (p : option Q) :
  Py.fits x = true -> request_fits p ->
  Py.fits (match p with
           | None => 0.20 * x
           | Some requested =>
               if Py.eq requested 0 then 0.20 * x
               else Py.min requested (0.20 * x)
           end) = true.
Proof.
  intros Hx Hp. apply fits_true in Hx. destruct Hx as [Hlo Hhi].
  assert (Hmax : Py.fits (0.20 * x) = true) by (apply fits_true; lra).
  destruct p as [requested |]; [| exact Hmax].
  simpl in Hp. destruct (Py.eq requested 0); [exact Hmax |].
  unfold Py.min. destruct (Py.lt (0.20 * x) requested); assumption.
Qed.

Lemma converting_locals_fits (income_type : string) (x : Q) (p : option Q) :
  Py.fits x = true -> request_fits p ->
  Converting.pension_locals income_type x p = pension_locals income_type x p.
Proof.
  intros Hx Hp. pose proof (invest_fits x p Hx Hp) as Hinv.
  unfold Converting.pension_locals, pension_locals.
  rewrite (converting_business_fits x Hx), (to_float_fits x Hx).
  destruct (income_type =? "salaried")%string.
  - destruct (salaried_total x) as (t & -> & _). cbn [Py.bind].
    destruct (Py.eq x 0); [reflexivity |].
    destruct (Py.lt 0 (inject_Z t)); cbn [Py.bind];
      try destruct (Py.truediv (inject_Z t) x) as [e | a]; cbn [Py.bind];
      try rewrite (to_float_fits _ Hinv); reflexivity.
  - destruct (income_type =? "business")%string; [| reflexivity].
    cbn [Py.bind].
    destruct (Py.eq x 0); [reflexivity |].
    destruct (Py.lt 0 (calculate_business_tax x)); cbn [Py.bind];
      try destruct (Py.truediv (calculate_business_tax x) x) as [e | a];
      cbn [Py.bind];
      try rewrite (to_float_fits _ Hinv); reflexivity.
Qed.

(** An income that no float can hold overflows on a recognised
    classification. *)
Lemma converting_locals_overflow (income_type : string) (x : Q)
    (p : option Q) :
  valid income_type -> Py.fits x = false ->
  Converting.pension_locals income_type x p = Py.Raise Py.OverflowError.
Proof.
  intros Hv Hx.
  assert (Hx0 : ~ x == 0).
  { intro Hz. apply fits_false in Hx.
    pose proof float_limit_large. lra. }
  assert (Hnz : Py.eq x 0 = false) by now apply eq_false.
  unfold Converting.pension_locals.
  rewrite (to_float_overflow x Hx), Hnz.
  destruct Hv as [-> | ->]; cbn [String.eqb Ascii.eqb Bool.eqb].
  - destruct (salaried_total x) as (t & -> & _). cbn [Py.bind].
    rewrite (truediv_nonzero _ _ Hx0).
    destruct (Py.lt 0 (inject_Z t)); reflexivity.
  - destruct (converting_business_cases x) as [-> | ->]; [| reflexivity].
    cbn [Py.bind].
    destruct (Py.lt 0 (calculate_business_tax x)); reflexivity.
Qed.

Lemma converting_calculator_of_locals
    (income_type : string) (x : Q) (p : option Q) :
  Converting.pension_locals income_type x p = pension_locals income_type x p ->
  Converting.pension_tax_calculator income_type x p
  = pension_tax_calculator income_type x p.
Proof.
  intro H. unfold Converting.pension_tax_calculator, pension_tax_calculator.
  now rewrite H.
Qed.

(** * The claims *)

(** ** C1 *)


(** ** C2 *)

(** C2.  For every annual income the salaried resolver returns the tax
    the table gives for the smallest bound that is not below the income;
    such a bound exists up to the largest bound 36000000, an income
    equal to a bound resolves to the tax of that bound, and an income
    above 36000000 resolves to 12848850, the tax of the largest
    bound. *)
Theorem salaried_tax_resolver (income : Q) :
  (forall b t, In (b, t) salary_slabs -> least_bound income b ->
               get_salaried_tax income = Py.Return t) /\
  (income <= inject_Z 36000000 -> exists b, least_bound income b) /\
  (forall b t, In (b, t) salary_slabs ->
               get_salaried_tax (inject_Z b) = Py.Return t) /\
  (In (36000000, 12848850)%Z salary_slabs /\
   forall b, In b (Py.keys salary_slabs) -> (b <= 36000000)%Z) /\
  (inject_Z 36000000 < income ->
   get_salaried_tax income = Py.Return 12848850%Z).
Proof.
  assert (Hkey : forall b t, In (b, t) salary_slabs ->
                             In b (Py.keys salary_slabs)).
  { intros b t H. change b with (fst (b, t)). now apply in_map. }
  assert (Htop : forall b, In b (Py.keys salary_slabs) -> (b <= 36000000)%Z).
  { intros b H. unfold Py.keys in H. apply in_map_iff in H.
    destruct H as ([b0 t] & <- & H). now apply salary_slabs_top in H. }
  assert (Hleast : forall x b t, In (b, t) salary_slabs -> least_bound x b ->
                                 get_salaried_tax x = Py.Return t).
  { intros x b t Hin (Hb & Hle & Hmin).
    destruct (salaried_resolve x)
      as [(b' & t' & Hin' & Hle' & Hmin' & Hget) | [Habove _]].
    - assert (b' = b) as ->.
      { apply (least_bound_unique x); eauto. }
      rewrite Hget. f_equal.
      exact (salary_slabs_functional _ _ _ Hin' Hin).
    - exfalso. specialize (Htop _ Hb). rewrite Zle_Qle in Htop. lra. }
  repeat split.
  - apply Hleast.
  - intro Hle.
    destruct (salaried_resolve income)
      as [(b & t & Hin & Hle' & Hmin & _) | [Habove _]].
    + exists b. repeat split; eauto.
    + lra.
  - intros b t Hin. apply (Hleast _ b t Hin).
    repeat split; [eauto | lra |].
    intros b' _ Hle. now rewrite Zle_Qle.
  - simpl. tauto.
  - exact Htop.
  - intro Habove.
    destruct (salaried_resolve income)
      as [(b & t & Hin & Hle & _) | [_ Hget]]; [| exact Hget].
    exfalso. apply Hkey in Hin. specialize (Htop _ Hin).
    rewrite Zle_Qle in Htop. lra.
Qed.

(** ** C3 *)

(** The salaried calculator at the income 10^309, an [int] no float
    can hold: [0.20 * annual_income] raises [OverflowError]. *)
Lemma overflow_on_large_income :
  ~ inject_Z (10 ^ 309) == 0 /\
  Converting.pension_tax_calculator "salaried" (inject_Z (10 ^ 309)) None
  = Py.Raise Py.OverflowError /\
  ~ (exists r, Converting.pension_tax_calculator
                 "salaried" (inject_Z (10 ^ 309)) None
               = Py.Return (Some r)).
Proof.
  assert (H : Converting.pension_tax_calculator
                "salaried" (inject_Z (10 ^ 309)) None
              = Py.Raise Py.OverflowError) by (vm_compute; reflexivity).
  split; [vm_compute; discriminate |].
  split; [exact H |].
  intros (r & Hr). rewrite H in Hr. discriminate.
Qed.

(** C3, amended.  The calculator returns no result exactly when the
    classification is neither "salaried" nor "business" or the annual
    income is zero.  On a recognised classification and an income other
    than zero it returns a dictionary whenever the income and the
    request are numbers a float can hold, which every float is and
    every [int] below 2^1024 - 2^970 in magnitude.  The one fault it
    can raise is [OverflowError], on an income or a request outside
    that range, and on every such income under a recognised
    classification. *)
Theorem no_result_iff (income_type : string) (income : Q) (p : option Q) :
  (Converting.pension_tax_calculator income_type income p = Py.Return None <->
   (income_type <> "salaried"%string /\ income_type <> "business"%string)
   \/ income == 0) /\
  (forall e,
     Converting.pension_tax_calculator income_type income p = Py.Raise e ->
     e = Py.OverflowError /\
     (income_type = "salaried"%string \/ income_type = "business"%string) /\
     ~ income == 0 /\
     (Py.fits income = false \/
      exists requested, p = Some requested /\ Py.fits requested = false)) /\
  ((income_type = "salaried"%string \/ income_type = "business"%string) ->
   ~ income == 0 -> Py.fits income = true -> request_fits p ->
   exists r, Converting.pension_tax_calculator income_type income p
             = Py.Return (Some r)) /\
  ((income_type = "salaried"%string \/ income_type = "business"%string) ->
   Py.fits income = false ->
   Converting.pension_tax_calculator income_type income p
   = Py.Raise Py.OverflowError).
Proof.
  destruct (calculator_outcome income_type income p)
    as (Hnever & Hnone & Hsome).
  assert (Hfit : Py.fits income = true -> request_fits p ->
                 Converting.pension_tax_calculator income_type income p
                 = pension_tax_calculator income_type income p).
  { intros Hx Hp. apply converting_calculator_of_locals.
    now apply converting_locals_fits. }
  assert (Hcases :
            Converting.pension_tax_calculator income_type income p
            = pension_tax_calculator income_type income p
            \/ Converting.pension_tax_calculator income_type income p
               = Py.Raise Py.OverflowError).
  { destruct (converting_locals_cases income_type income p) as [H | H].
    - left. now apply converting_calculator_of_locals.
    - right. unfold Converting.pension_tax_calculator. now rewrite H. }
  assert (Hbad : (income_type <> "salaried"%string /\
                  income_type <> "business"%string) \/ income == 0 ->
                 Converting.pension_tax_calculator income_type income p
                 = Py.Return None).
  { intro H. destruct Hcases as [Heq | Hraise].
    - rewrite Heq. now apply Hnone.
    - exfalso. unfold Converting.pension_tax_calculator in Hraise.
      destruct H as [[Hs Hb] | Hz].
      + unfold Converting.pension_locals in Hraise.
        apply String.eqb_neq in Hs, Hb. rewrite Hs, Hb in Hraise.
        discriminate.
      + assert (Hx : Py.fits income = true).
        { apply fits_true. pose proof float_limit_large. lra. }
        apply eq_true in Hz.
        unfold Converting.pension_locals in Hraise.
        rewrite (converting_business_fits income Hx), Hz in Hraise.
        destruct (income_type =? "salaried")%string.
        * destruct (salaried_total income) as (t & Ht & _).
          rewrite Ht in Hraise. discriminate.
        * destruct (income_type =? "business")%string; discriminate. }
  split; [| split; [| split]].
  - split; [| exact Hbad].
    intro Hret. destruct Hcases as [Heq | Hraise].
    + apply Hnone. now rewrite <- Heq.
    + rewrite Hraise in Hret. discriminate.
  - intros e He.
    assert (e = Py.OverflowError) as ->.
    { destruct Hcases as [Heq | Hraise].
      - exfalso. apply (Hnever e). now rewrite <- Heq.
      - rewrite Hraise in He. now inversion He. }
    split; [reflexivity |].
    assert (Hgood : (income_type = "salaried"%string \/
                     income_type = "business"%string) /\ ~ income == 0).
    { destruct (Qeq_dec income 0) as [Hz | Hnz];
        [rewrite Hbad in He by (now right); discriminate |].
      destruct (String.eqb_spec income_type "salaried") as [Hs | Hs];
        [tauto |].
      destruct (String.eqb_spec income_type "business") as [Hb | Hb];
        [tauto |].
      rewrite Hbad in He by (left; tauto). discriminate. }
    split; [tauto |]. split; [tauto |].
    destruct (Py.fits income) eqn:Hx; [| now left].
    right. destruct p as [requested |].
    + exists requested. split; [reflexivity |].
      destruct (Py.fits requested) eqn:Hp; [| reflexivity].
      exfalso. apply (Hnever Py.OverflowError).
      rewrite <- (Hfit eq_refl Hp). exact He.
    + exfalso. apply (Hnever Py.OverflowError).
      rewrite <- (Hfit eq_refl I). exact He.
  - intros Hv Hnz Hx Hp. rewrite (Hfit Hx Hp). now apply Hsome.
  - intros Hv Hx. unfold Converting.pension_tax_calculator.
    now rewrite (converting_locals_overflow income_type income p Hv Hx).
Qed.

(** ** C4 *)



(** ** C5 *)




(** ** C6 *)

(** C6.  The business resolver is continuous at every interior bound.
    Each bracket but the last has a finite bound, and there the formula
    of the bracket, counted from the bound before it, gives the base
    tax recorded for the next bracket: the base taxes are the running
    totals of the rates applied across the widths of the brackets
    below.  The resolver returns that value at the bound, and the
    formula of the next bracket gives it there too. *)
Theorem business_continuous (i : nat) :
  (S i < List.length business_slabs)%nat ->
  exists s s' bound lower_bound,
    bracket i = Some s /\
    slab_limit s = Finite bound /\
    bracket (S i) = Some s' /\
    bound_of_previous_bracket i = Some lower_bound /\
    slab_base_tax s + (bound - lower_bound) * slab_rate s
    == slab_base_tax s' /\
    calculate_business_tax bound == slab_base_tax s' /\
    slab_base_tax s' + (bound - bound) * slab_rate s' == slab_base_tax s'.
Proof.
  intro Hi.
  do 7 (destruct i as [| i];
        [ eexists _, _, _, _;
          repeat split; try reflexivity; vm_compute; reflexivity |]).
  simpl in Hi. lia.
Qed.

Lemma business_continuous_witness :
  exists s s' bound lower_bound,
    bracket 3 = Some s /\
    slab_limit s = Finite bound /\
    bracket 4 = Some s' /\
    bound_of_previous_bracket 3 = Some lower_bound /\
    slab_base_tax s + (bound - lower_bound) * slab_rate s
    == slab_base_tax s' /\
    calculate_business_tax bound == slab_base_tax s' /\
    slab_base_tax s' + (bound - bound) * slab_rate s' == slab_base_tax s'.
Proof.
  apply (business_continuous 3). simpl. lia.
Defined.

(** ** C7 *)

(** C7.  The salaried resolver is monotone: of two incomes, the larger
    or equal one resolves to the larger or equal tax. *)
Theorem salaried_monotone (x y : Q) :
  x <= y ->
  exists tx ty,
    get_salaried_tax x = Py.Return tx /\
    get_salaried_tax y = Py.Return ty /\
    (tx <= ty)%Z.
Proof.
  intro Hxy.
  destruct (salaried_resolve x)
    as [(bx & tx & Hinx & Hlex & Hminx & Hgetx) | [Habovex Hgetx]];
  destruct (salaried_resolve y)
    as [(by' & ty & Hiny & Hley & Hminy & Hgety) | [Habovey Hgety]].
  - exists tx, ty. repeat split; auto.
    apply (salary_slabs_monotone bx tx by' ty); auto.
    apply Hminx; [| lra].
    change by' with (fst (by', ty)). now apply in_map.
  - exists tx, 12848850%Z. repeat split; auto.
    now apply salary_slabs_top in Hinx.
  - exfalso. apply salary_slabs_top in Hiny. destruct Hiny as [Hb _].
    rewrite Zle_Qle in Hb. lra.
  - exists 12848850%Z, 12848850%Z. repeat split; auto. lia.
Qed.

Lemma salaried_monotone_witness :
  exists tx ty,
    get_salaried_tax 1200000 = Py.Return tx /\
    get_salaried_tax 2400000 = Py.Return ty /\
    (tx <= ty)%Z.
Proof.
  apply (salaried_monotone 1200000 2400000).
  unfold Qle; simpl; lia.
Defined.

(** ** C8 *)



(** ** C9 *)

(** C9.  Salaried, annual income 1200000, requested investment 0: the
    base tax is 6000, the average rate 0.005, the maximum and the
    effective investment 240000, the tax saving 1200, the new tax 4800
    and the monthly saving 100. *)
Theorem scenario_salaried_1200000 :
  pension_tax_calculator "salaried" 1200000 (Some 0) =
  Py.Return (Some {| Income_Type := "Salaried";
                     Annual_Income := 1200000;
                     Monthly_Income := 100000;
                     Tax_Without_Pension := 6000;
                     Max_Pension_Investment := 240000;
                     Your_Pension_Investment := 240000;
                     Tax_Saving := 1200;
                     New_Tax_Payable := 4800;
                     Monthly_Saving := 100 |}) /\
  exists l,
    pension_locals "salaried" 1200000 (Some 0) = Py.Return (Some l) /\
    tax_2026 l == 6000 /\
    avg_tax_rate l == 0.005 /\
    max_invest l == 240000 /\
    invest l == 240000 /\
    rebate l == 1200 /\
    new_tax l == 4800 /\
    rebate l / 12 == 100.
Proof.
  split; [vm_compute; reflexivity |].
  eexists. split; [vm_compute; reflexivity |].
  cbn [tax_2026 avg_tax_rate max_invest invest rebate new_tax].
  repeat split; vm_compute; reflexivity.
Qed.

(** ** C10 *)




(** * Further properties *)

(** ** The business resolver *)

(** X1.  Business tax never falls as income rises. *)
Theorem business_monotone (x y : Q) :
  x <= y ->
  calculate_business_tax x <= calculate_business_tax y.
Proof.
  intro Hxy. unfold calculate_business_tax, business_slabs.
  cbn [business_scan].
  repeat py_case; lra.
Qed.

Lemma business_monotone_witness :
  calculate_business_tax 1000000 <= calculate_business_tax 5000000.
Proof.
  apply (business_monotone 1000000 5000000).
  unfold Qle; simpl; lia.
Defined.

(** X2.  The early [return 0] of the business resolver changes nothing:
    the loop alone gives the same tax for every income, because the
    first bracket has base tax 0 and rate 0. *)
Theorem business_guard_redundant (income : Q) :
  business_scan income 0 business_slabs == calculate_business_tax income.
Proof.
  unfold calculate_business_tax, business_slabs.
  cbn [business_scan].
  repeat py_case; lra.
Qed.

(** ** The salaried resolver *)

(** The scan of the salary table, test by test. *)
Ltac salaried_cases :=
  unfold get_salaried_tax; rewrite sorted_slabs_eq;
  unfold salary_slabs at 1; cbn [Py.keys map fst salaried_scan];
  repeat py_case; unfold inject_Z in *.


(** X3.  The salaried resolver is a step function with cliffs.  Between
    two neighbouring bounds of the table every income pays the tax of
    the upper bound, which is higher than the tax of the lower bound;
    so an income that exceeds the lower bound by less than the
    difference of the two taxes leaves less after tax than the lower
    bound itself. *)
Theorem salaried_cliff (i : nat) (b t b' t' : Z) (x : Q) :
  slab_at i = Some (b, t) ->
  slab_at (S i) = Some (b', t') ->
  inject_Z b < x <= inject_Z b' ->
  (t < t')%Z /\
  get_salaried_tax (inject_Z b) = Py.Return t /\
  get_salaried_tax x = Py.Return t' /\
  (x < inject_Z b + inject_Z (t' - t) ->
   x - inject_Z t' < inject_Z b - inject_Z t).
Proof.
  intros Hlo Hhi [Hgt Hle].
  do 19 (destruct i as [| i];
         [ inversion Hlo; subst; inversion Hhi; subst;
           unfold inject_Z in Hgt, Hle;
           split; [lia |];
           split; [vm_compute; reflexivity |];
           split; [salaried_cases; first [reflexivity | exfalso; lra]
                  | unfold inject_Z; simpl Z.sub; lra] |]).
  destruct i; discriminate.
Qed.

Lemma salaried_cliff_witness :
  (6000 < 72000)%Z /\
  get_salaried_tax (inject_Z 1200000) = Py.Return 6000%Z /\
  get_salaried_tax 1230000 = Py.Return 72000%Z /\
  (1230000 < inject_Z 1200000 + inject_Z (72000 - 6000) ->
   1230000 - inject_Z 72000 < inject_Z 1200000 - inject_Z 6000).
Proof.
  apply (salaried_cliff 1 1200000 6000 1800000 72000 1230000).
  - reflexivity.
  - reflexivity.
  - split; [unfold Qlt | unfold Qle]; simpl; lia.
Defined.

(** ** The rebate calculator *)

Lemma round_comp (x y : Q) : x == y -> Py.round x = Py.round y.
Proof.
  intro H. unfold Py.round. rewrite (Qfloor_comp x y H).
  repeat py_case; first [reflexivity | exfalso; lra].
Qed.




















(** ** The page *)

(** On a positive income and a request that is not negative, nothing in
    the dictionary is negative and nothing exceeds its ceiling. *)
Lemma calculator_in_range (income_type : string) (income requested : Q) :
  valid income_type -> 0 < income -> 0 <= requested ->
  exists l,
    pension_locals income_type income (Some requested) = Py.Return (Some l) /\
    pension_tax_calculator income_type income (Some requested)
    = Py.Return (Some (dictionary income_type income l)) /\
    max_invest l = 0.20 * income /\
    0 <= invest l <= max_invest l /\
    0 <= rebate l <= tax_2026 l /\
    0 <= new_tax l <= tax_2026 l.
Proof.
  intros Hv Hinc Hp.
  assert (Hnz : ~ income == 0) by lra.
  destruct (locals_valid income_type income (Some requested) Hv Hnz)
    as (l & Hl & Hnn & _ & _ & Havg & Hmax & Hinv & Hreb & Hnew).
  destruct (average_rate l income Hinc Hnn Havg) as (Hmul & Hrate & _).
  exists l. split; [exact Hl |].
  split; [exact (calculator_of_locals _ _ _ _ Hl) |].
  split; [exact Hmax |].
  assert (Hinvest : 0 <= invest l <= max_invest l).
  { rewrite Hinv, Hmax. py_case; [lra |]. unfold Py.min. py_case; lra. }
  assert (Hlow : 0 <= invest l * avg_tax_rate l).
  { apply Qmult_le_0_compat; tauto. }
  assert (Hhigh : invest l * avg_tax_rate l <= max_invest l * avg_tax_rate l).
  { apply Qmult_le_compat_r; tauto. }
  assert (Hcap : max_invest l * avg_tax_rate l == 0.20 * tax_2026 l).
  { rewrite Hmax, <- Hmul. ring. }
  split; [exact Hinvest |].
  rewrite Hnew, Hreb. split; split; lra.
Qed.

(** The annual income the page hands to the calculator. *)
Lemma page_income (income_type income_input_type : string) (entered : Z)
    (pension_invest : Q) :
  widgets_allow income_type income_input_type entered pension_invest ->
  exists annual_income : Q,
    0 < annual_income /\
    (income_input_type = "Monthly"%string ->
     annual_income = inject_Z (entered * 12)) /\
    (income_input_type = "Annual"%string ->
     annual_income = inject_Z entered) /\
    forall calculate,
      run_page income_type income_input_type entered pension_invest calculate
      = if calculate then
          result <- pension_tax_calculator income_type annual_income
                      (Some pension_invest) ;;
          match result with
          | Some r => Py.Return {| max_invest_info := 0.20 * annual_income;
                                   shown := Some (Complete r) |}
          | None => Py.Return {| max_invest_info := 0.20 * annual_income;
                                 shown := Some InvalidInput |}
          end
        else Py.Return {| max_invest_info := 0.20 * annual_income;
                          shown := None |}.
Proof.
  intros (_ & [[-> Hmin] | [-> Hmin]] & _).
  - exists (inject_Z (entered * 12)).
    split; [change 0 with (inject_Z 0); rewrite <- Zlt_Qlt; lia |].
    split; [reflexivity |]. split; [discriminate |].
    intro calculate. reflexivity.
  - exists (inject_Z entered).
    split; [change 0 with (inject_Z 0); rewrite <- Zlt_Qlt; lia |].
    split; [discriminate |]. split; [reflexivity |].
    intro calculate. reflexivity.
Qed.

(** X11.  With values the widgets allow, pressing "Calculate Tax" always
    shows a result and never the error message.  In that result the
    maximum investment is the rounded figure of the information line,
    and the investment used, the tax saving and the new tax payable are
    not negative and at most the maximum investment, the tax without
    pension and the tax without pension. *)
Theorem page_always_completes
    (income_type income_input_type : string) (entered : Z)
    (pension_invest : Q) :
  widgets_allow income_type income_input_type entered pension_invest ->
  exists pg r,
    run_page income_type income_input_type entered pension_invest true
    = Py.Return pg /\
    shown pg = Some (Complete r) /\
    Max_Pension_Investment r = Py.round (max_invest_info pg) /\
    (0 <= Your_Pension_Investment r <= Max_Pension_Investment r)%Z /\
    (0 <= Tax_Saving r <= Tax_Without_Pension r)%Z /\
    (0 <= New_Tax_Payable r <= Tax_Without_Pension r)%Z.
Proof.
  intro Hw.
  destruct (page_income _ _ _ _ Hw) as (annual & Hpos & _ & _ & Hrun).
  destruct Hw as (Hv & _ & Hp).
  destruct (calculator_in_range income_type annual pension_invest Hv Hpos Hp)
    as (l & _ & Hcalc & Hmax & Hinvest & Hrebate & Hnewtax).
  eexists. exists (dictionary income_type annual l).
  split; [rewrite Hrun, Hcalc; reflexivity |].
  cbn [shown max_invest_info dictionary Max_Pension_Investment
       Your_Pension_Investment Tax_Saving Tax_Without_Pension
       New_Tax_Payable].
  split; [reflexivity |].
  split; [now rewrite Hmax |].
  repeat split;
    try (rewrite <- (round_whole 0); apply round_mono; tauto);
    apply round_mono; tauto.
Qed.

Lemma page_always_completes_witness :
  exists pg r,
    run_page "salaried" "Monthly" 100000 0 true = Py.Return pg /\
    shown pg = Some (Complete r) /\
    Max_Pension_Investment r = Py.round (max_invest_info pg) /\
    (0 <= Your_Pension_Investment r <= Max_Pension_Investment r)%Z /\
    (0 <= Tax_Saving r <= Tax_Without_Pension r)%Z /\
    (0 <= New_Tax_Payable r <= Tax_Without_Pension r)%Z.
Proof.
  apply (page_always_completes "salaried" "Monthly" 100000 0).
  split; [left; reflexivity |].
  split; [left; split; [reflexivity | lia] |].
  unfold Qle; simpl; lia.
Defined.

(** X12.  The incomes shown agree with the income entered.  Entered by
    the month, the result carries twelve times the entry as annual
    income and the entry itself as monthly income; entered by the year,
    it carries the entry as annual income and a monthly income within 6
    of a twelfth of it, times twelve. *)
Theorem page_income_round_trip
    (income_type income_input_type : string) (entered : Z)
    (pension_invest : Q) :
  widgets_allow income_type income_input_type entered pension_invest ->
  exists pg r,
    run_page income_type income_input_type entered pension_invest true
    = Py.Return pg /\
    shown pg = Some (Complete r) /\
    (income_input_type = "Monthly"%string ->
     Annual_Income r = (entered * 12)%Z /\ Monthly_Income r = entered) /\
    (income_input_type = "Annual"%string ->
     Annual_Income r = entered /\
     (Z.abs (12 * Monthly_Income r - entered) <= 6)%Z).
Proof.
  intro Hw.
  destruct (page_income _ _ _ _ Hw) as (annual & Hpos & Hmon & Hann & Hrun).
  destruct Hw as (Hv & _ & Hp).
  destruct (calculator_in_range income_type annual pension_invest Hv Hpos Hp)
    as (l & _ & Hcalc & _).
  eexists. exists (dictionary income_type annual l).
  split; [rewrite Hrun, Hcalc; reflexivity |].
  cbn [shown dictionary Annual_Income Monthly_Income].
  split; [reflexivity |].
  split; intro Hmode.
  - rewrite (Hmon Hmode). split; [apply round_whole |].
    rewrite <- (round_whole entered) at 2. apply round_comp.
    rewrite inject_Z_mult. change (inject_Z 12) with 12. field.
  - rewrite (Hann Hmode). split; [apply round_whole |].
    destruct (round_near (inject_Z entered / 12)) as [Hlo Hhi].
    assert (E : 12 * (inject_Z entered / 12) == inject_Z entered) by field.
    set (m := Py.round (inject_Z entered / 12)) in *.
    set (twelfth := inject_Z entered / 12) in *.
    assert (Hup : (12 * m - entered <= 6)%Z).
    { apply whole_le. unfold Z.sub.
      rewrite inject_Z_plus, inject_Z_opp, inject_Z_mult.
      change (inject_Z 12) with 12. change (inject_Z 6) with 6. lra. }
    assert (Hdown : (- 6 <= 12 * m - entered)%Z).
    { apply whole_le. unfold Z.sub.
      rewrite inject_Z_plus, inject_Z_opp, inject_Z_mult.
      change (inject_Z 12) with 12. change (inject_Z (-6)) with (-6 # 1).
      lra. }
    lia.
Qed.

Lemma page_income_round_trip_witness :
  exists pg r,
    run_page "business" "Annual" 1000000 0 true = Py.Return pg /\
    shown pg = Some (Complete r) /\
    ("Annual"%string = "Monthly"%string ->
     Annual_Income r = (1000000 * 12)%Z /\ Monthly_Income r = 1000000%Z) /\
    ("Annual"%string = "Annual"%string ->
     Annual_Income r = 1000000%Z /\
     (Z.abs (12 * Monthly_Income r - 1000000) <= 6)%Z).
Proof.
  apply (page_income_round_trip "business" "Annual" 1000000 0).
  split; [right; reflexivity |].
  split; [right; split; [reflexivity | lia] |].
  unfold Qle; simpl; lia.
Defined.

(** ** The PDF report *)

Lemma draw_items_nth (format_commas : Z -> string)
    (d : list (string * value)) (y : Z) (i : nat) (k : string) (v : value) :
  nth_error d i = Some (k, v) ->
  nth_error (draw_items format_commas y d) i
  = Some (DrawString 50 (y - 20 * Z.of_nat i) (line format_commas k v)).
Proof.
  revert y i. induction d as [| [k' v'] d IH]; intros y i H.
  - destruct i; discriminate.
  - destruct i as [| i].
    + inversion H; subst. cbn. do 2 f_equal. lia.
    + cbn [draw_items nth_error]. rewrite (IH (y - 20)%Z i H).
      do 2 f_equal. lia.
Qed.

Lemma draw_items_length (format_commas : Z -> string)
    (d : list (string * value)) (y : Z) :
  List.length (draw_items format_commas y d) = List.length d.
Proof.
  revert y. induction d as [| [k v] d IH]; intro y; cbn;
    [reflexivity | now rewrite IH].
Qed.

(** X13.  The PDF report sets the font, draws the title and then one
    line for every entry of the dictionary, in the order of the
    dictionary, at x = 50 and 20 points below the line before, the
    first at y = 750, and saves.  Nothing starts a new page: the 39th
    entry and the ones after it are drawn below y = 0.  The nine
    entries of a result of the calculator lie between y = 590 and
    y = 750. *)
Theorem pdf_layout (format_commas : Z -> string)
    (d : list (string * value)) (i : nat) (k : string) (v : value) :
  nth_error d i = Some (k, v) ->
  nth_error (export_pdf format_commas d) (2 + i)
  = Some (DrawString 50 (750 - 20 * Z.of_nat i) (line format_commas k v)) /\
  List.length (export_pdf format_commas d) = (List.length d + 3)%nat /\
  nth_error (export_pdf format_commas d) (List.length d + 2) = Some Save /\
  ((0 <= 750 - 20 * Z.of_nat i)%Z <-> (i <= 37)%nat) /\
  (forall r, d = items r -> (590 <= 750 - 20 * Z.of_nat i <= 750)%Z).
Proof.
  intro H.
  assert (Hlt : (i < List.length d)%nat).
  { apply nth_error_Some. rewrite H. discriminate. }
  split.
  { unfold export_pdf. cbn [Nat.add nth_error].
    rewrite nth_error_app1 by (now rewrite draw_items_length).
    now apply draw_items_nth. }
  split.
  { unfold export_pdf. cbn [List.length].
    rewrite length_app, draw_items_length. cbn. lia. }
  split.
  { unfold export_pdf.
    replace (List.length d + 2)%nat with (S (S (List.length d))) by lia.
    cbn [nth_error].
    rewrite nth_error_app2 by (rewrite draw_items_length; lia).
    rewrite draw_items_length, Nat.sub_diag. reflexivity. }
  split; [lia |].
  intros r ->. cbn in Hlt. lia.
Qed.

Lemma pdf_layout_witness :
  nth_error (export_pdf (fun _ => "100"%string) (items scenario_result))
    (2 + 8)
  = Some (DrawString 50 (750 - 20 * Z.of_nat 8)
            (line (fun _ => "100"%string) "Monthly Saving" (Number 100))) /\
  List.length (export_pdf (fun _ => "100"%string) (items scenario_result))
  = (List.length (items scenario_result) + 3)%nat /\
  nth_error (export_pdf (fun _ => "100"%string) (items scenario_result))
    (List.length (items scenario_result) + 2) = Some Save /\
  ((0 <= 750 - 20 * Z.of_nat 8)%Z <-> (8 <= 37)%nat) /\
  (forall r, items scenario_result = items r ->
             (590 <= 750 - 20 * Z.of_nat 8 <= 750)%Z).
Proof.
  apply (pdf_layout (fun _ => "100"%string) (items scenario_result) 8
           "Monthly Saving" (Number 100)).
  reflexivity.
Defined.
